(** * Bicycle ABS (Milestone3/main.c): model of the interrupt handlers

    The firmware runs on an ATmega328P.  Every piece of work is done
    inside an interrupt service routine; [main] only enables interrupts
    and idles.  An AVR handler declared with [ISR(...)] runs with the
    global interrupt flag cleared, so each handler runs to completion and
    an execution is a sequence of handler invocations on the global
    variables.  The model is therefore a state record for the globals and
    the two output-compare registers, one function per handler, and a
    fold over a list of interrupt events.

    Integer widths are those of avr-gcc: [int] is 16 bits, [uint32_t] and
    [int32_t] are 32 bits, [OCR1A]/[OCR1B] are 16-bit registers, [ADCH]
    and [PIND] are 8-bit registers. *)

From Stdlib Require Import ZArith List Lia Bool.
Import ListNotations.
Local Open Scope Z_scope.

(** ** Machine integers *)

Module Word.

(** Conversion to an unsigned type of [w] bits. *)
Definition unsigned (w z : Z) : Z := z mod 2 ^ w.

(** Conversion to a signed two's complement type of [w] bits. *)
Definition signed (w z : Z) : Z :=
  let u := unsigned w z in
  if u <? 2 ^ (w - 1) then u else u - 2 ^ w.

End Word.

Definition uint32_t (z : Z) : Z := Word.unsigned 32 z.
Definition int32_t (z : Z) : Z := Word.signed 32 z.
Definition uint16_t (z : Z) : Z := Word.unsigned 16 z.

(** ** Constants *)

Definition DIFFERENCE_THRESHOLD : Z := 50.

(** Bit numbers of the two sensor pins in [PIND]; they come from the
    device header behind [<avr/io.h>]. *)
Definition PORTD2 : Z := 2.
Definition PORTD3 : Z := 3.

(** The value [-1] as every [uint32_t] variable of the program holds it:
    the initialisers [= -1], the assignments [= -1] and the comparisons
    [== -1] all convert the [int] constant to [uint32_t]. *)
Definition Unknown : Z := uint32_t (-1).

(** The three values ever stored in [checkWheelsFrequenciesReturnValue],
    under the names the comment above [checkWheelsFrequencies] gives. *)
Definition Balanced : Z := 0.
Definition FrontSlower : Z := 1.
Definition RearSlower : Z := -1.

(** ** Program state: the globals of main.c and the two PWM registers *)

Record state : Type := mkState {
  microsFrontWheel : Z;
  microsRearWheel : Z;
  startFrontWheel : Z;
  startRearWheel : Z;
  frontWheelPeriod : Z;
  rearWheelPeriod : Z;
  checkWheelsFrequenciesReturnValue : Z;
  OCR1A : Z;
  OCR1B : Z
}.

Definition set_microsFrontWheel (v : Z) (s : state) : state :=
  mkState v (microsRearWheel s) (startFrontWheel s) (startRearWheel s)
          (frontWheelPeriod s) (rearWheelPeriod s)
          (checkWheelsFrequenciesReturnValue s) (OCR1A s) (OCR1B s).

Definition set_microsRearWheel (v : Z) (s : state) : state :=
  mkState (microsFrontWheel s) v (startFrontWheel s) (startRearWheel s)
          (frontWheelPeriod s) (rearWheelPeriod s)
          (checkWheelsFrequenciesReturnValue s) (OCR1A s) (OCR1B s).

Definition set_startFrontWheel (v : Z) (s : state) : state :=
  mkState (microsFrontWheel s) (microsRearWheel s) v (startRearWheel s)
          (frontWheelPeriod s) (rearWheelPeriod s)
          (checkWheelsFrequenciesReturnValue s) (OCR1A s) (OCR1B s).

Definition set_startRearWheel (v : Z) (s : state) : state :=
  mkState (microsFrontWheel s) (microsRearWheel s) (startFrontWheel s) v
          (frontWheelPeriod s) (rearWheelPeriod s)
          (checkWheelsFrequenciesReturnValue s) (OCR1A s) (OCR1B s).

Definition set_frontWheelPeriod (v : Z) (s : state) : state :=
  mkState (microsFrontWheel s) (microsRearWheel s) (startFrontWheel s)
          (startRearWheel s) v (rearWheelPeriod s)
          (checkWheelsFrequenciesReturnValue s) (OCR1A s) (OCR1B s).

Definition set_rearWheelPeriod (v : Z) (s : state) : state :=
  mkState (microsFrontWheel s) (microsRearWheel s) (startFrontWheel s)
          (startRearWheel s) (frontWheelPeriod s) v
          (checkWheelsFrequenciesReturnValue s) (OCR1A s) (OCR1B s).

Definition set_checkWheelsFrequenciesReturnValue (v : Z) (s : state) : state :=
  mkState (microsFrontWheel s) (microsRearWheel s) (startFrontWheel s)
          (startRearWheel s) (frontWheelPeriod s) (rearWheelPeriod s)
          v (OCR1A s) (OCR1B s).

Definition set_OCR1A (v : Z) (s : state) : state :=
  mkState (microsFrontWheel s) (microsRearWheel s) (startFrontWheel s)
          (startRearWheel s) (frontWheelPeriod s) (rearWheelPeriod s)
          (checkWheelsFrequenciesReturnValue s) v (OCR1B s).

Definition set_OCR1B (v : Z) (s : state) : state :=
  mkState (microsFrontWheel s) (microsRearWheel s) (startFrontWheel s)
          (startRearWheel s) (frontWheelPeriod s) (rearWheelPeriod s)
          (checkWheelsFrequenciesReturnValue s) (OCR1A s) v.

(** The state after reset: the initialisers of lines 33-39; the timer
    registers read zero after reset. *)
Definition init : state :=
  mkState 0 0 0 0 (uint32_t (-1)) (uint32_t (-1)) 0 0 0.

(** ** checkWheelsFrequencies (lines 79-91) *)

(** [int32_t difference = frontWheelPeriod-rearWheelPeriod;]: the
    subtraction is done in [uint32_t] and the result converted. *)
Definition difference (s : state) : Z :=
  int32_t (uint32_t (frontWheelPeriod s - rearWheelPeriod s)).

Definition checkWheelsFrequencies (s : state) : state :=
  if (frontWheelPeriod s =? uint32_t (-1)) || (rearWheelPeriod s =? uint32_t (-1))
  then s
  else
    let difference := difference s in
    let s := set_frontWheelPeriod (uint32_t (-1)) s in
    let s := set_rearWheelPeriod (uint32_t (-1)) s in
    if difference >? DIFFERENCE_THRESHOLD
    then set_checkWheelsFrequenciesReturnValue 1 s
    else if difference <? - DIFFERENCE_THRESHOLD
    then set_checkWheelsFrequenciesReturnValue (-1) s
    else set_checkWheelsFrequenciesReturnValue 0 s.

(** ** setServoPosition (lines 95-102) *)

(** Line 97, the bounds check on the parameter. *)
Definition clamp_value (value : Z) : Z :=
  if value >? 235 then 235 else if value <? 0 then 0 else value.

Definition setServoPosition (value : Z) (s : state) : state :=
  let s := checkWheelsFrequencies s in
  let value := clamp_value value in
  let s :=
    set_OCR1A
      (uint16_t (1000 + (if checkWheelsFrequenciesReturnValue s =? 1
                         then 0 else Z.shiftl value 4))) s in
  set_OCR1B
    (uint16_t (1000 + (if checkWheelsFrequenciesReturnValue s =? -1
                       then 0 else Z.shiftl value 4))) s.

(** ** Interrupt service routines (lines 106-143) *)

Definition ADC_vect (ADCH : Z) (s : state) : state :=
  setServoPosition (128 - ADCH) s.

Definition TIMER2_COMPA_vect (s : state) : state :=
  let s := set_microsFrontWheel (uint32_t (microsFrontWheel s + 1)) s in
  set_microsRearWheel (uint32_t (microsRearWheel s + 1)) s.

Definition INT0_vect (PIND : Z) (s : state) : state :=
  if negb (Z.land PIND (Z.shiftl 1 PORTD2) =? 0)
  then set_startFrontWheel (microsFrontWheel s) s
  else
    let s :=
      set_frontWheelPeriod
        (uint32_t (microsFrontWheel s - startFrontWheel s)) s in
    set_microsFrontWheel 0 s.

Definition INT1_vect (PIND : Z) (s : state) : state :=
  if negb (Z.land PIND (Z.shiftl 1 PORTD3) =? 0)
  then set_startRearWheel (microsRearWheel s) s
  else
    let s :=
      set_rearWheelPeriod
        (uint32_t (microsRearWheel s - startRearWheel s)) s in
    set_microsRearWheel 0 s.

(** ** Executions: sequences of interrupts *)

(** One constructor per interrupt source, carrying the value of the
    input register the handler reads. *)
Inductive event : Type :=
| ADC (ADCH : Z)
| TIMER2_COMPA
| INT0 (PIND : Z)
| INT1 (PIND : Z).

Definition step (s : state) (e : event) : state :=
  match e with
  | ADC ADCH => ADC_vect ADCH s
  | TIMER2_COMPA => TIMER2_COMPA_vect s
  | INT0 PIND => INT0_vect PIND s
  | INT1 PIND => INT1_vect PIND s
  end.

Definition run (tr : list event) (s : state) : state :=
  fold_left step tr s.

(** Both samples are fresh: neither test of line 83 fires. *)
Definition both_fresh (s : state) : Prop :=
  frontWheelPeriod s <> Unknown /\ rearWheelPeriod s <> Unknown.

Definition both_freshb (s : state) : bool :=
  negb ((frontWheelPeriod s =? uint32_t (-1)) || (rearWheelPeriod s =? uint32_t (-1))).

(** ** The two wheel channels, side by side *)

Inductive wheel : Type := Front | Rear.

Definition micros (w : wheel) (s : state) : Z :=
  match w with Front => microsFrontWheel s | Rear => microsRearWheel s end.

Definition start (w : wheel) (s : state) : Z :=
  match w with Front => startFrontWheel s | Rear => startRearWheel s end.

Definition period (w : wheel) (s : state) : Z :=
  match w with Front => frontWheelPeriod s | Rear => rearWheelPeriod s end.

Definition other (w : wheel) : wheel :=
  match w with Front => Rear | Rear => Front end.

(** The pin-change interrupt of a wheel, with the value [PIND] has when
    its handler runs. *)
Definition edge (w : wheel) (PIND : Z) : event :=
  match w with Front => INT0 PIND | Rear => INT1 PIND end.

(** The test of lines 123 and 137: the sensor line of the wheel is high,
    so the handler takes the rising-edge branch. *)
Definition high (w : wheel) (PIND : Z) : bool :=
  negb (Z.land PIND
          (Z.shiftl 1 (match w with Front => PORTD2 | Rear => PORTD3 end)) =? 0).

(** [e] is an edge interrupt of wheel [w]. *)
Definition is_edge (w : wheel) (e : event) : bool :=
  match w, e with
  | Front, INT0 _ => true
  | Rear, INT1 _ => true
  | _, _ => false
  end.

(** [e] is an edge interrupt of wheel [w] that takes the falling-edge
    branch, the only place where the wheel's sample is published. *)
Definition is_fall (w : wheel) (e : event) : bool :=
  match w, e with
  | Front, INT0 PIND => negb (high Front PIND)
  | Rear, INT1 PIND => negb (high Rear PIND)
  | _, _ => false
  end.

Definition no_edge (w : wheel) (tr : list event) : bool :=
  forallb (fun e => negb (is_edge w e)) tr.

Definition no_fall (w : wheel) (tr : list event) : bool :=
  forallb (fun e => negb (is_fall w e)) tr.

(** Number of timer interrupts in a trace. *)
Definition count_ticks (tr : list event) : Z :=
  Z.of_nat (length (filter (fun e => match e with TIMER2_COMPA => true | _ => false end) tr)).

(** [n] timer interrupts in a row. *)
Definition ticks (n : nat) : list event := repeat TIMER2_COMPA n.


(** No control cycle of [tr], started in [s], finds both samples fresh:
    the trace stays before the first evaluation that takes the
    comparing branch. *)
Fixpoint holding (tr : list event) (s : state) : bool :=
  match tr with
  | [] => true
  | e :: tr' =>
      match e with
      | ADC _ => negb (both_freshb s)
      | _ => true
      end && holding tr' (step s e)
  end.

(** A trace with a repeated falling edge on the front sensor: the second
    one subtracts a start mark (110) taken before the counter was reset
    from a counter that has since restarted (60). *)
Definition repeated_fall : list event :=
  ticks 110 ++ [INT0 4; INT0 0] ++ ticks 60 ++ [INT0 0; INT1 0].

(** ** Definitions that follow the words of the specification *)

(** [clamp(x, lo, hi)]. *)
Definition clamp (x lo hi : Z) : Z := Z.max lo (Z.min x hi).

(** The classification of a signed difference [d] against the threshold. *)
Definition classify (d : Z) : Z :=
  if d >? 50 then FrontSlower else if d <? -50 then RearSlower else Balanced.

(** ** Peripheral set-up (lines 42-74) and main (lines 145-152) *)

Definition uint8_t (z : Z) : Z := Word.unsigned 8 z.

(** The special-function registers the set-up functions write. *)
Inductive reg : Type :=
| ADMUX | ADCSRA
| TCCR2A | TCCR2B | TIMSK2 | OCR2A
| EIMSK | EICRA
| DDRB | TCCR1A | TCCR1B | ICR1.

Definition reg_eq_dec (a b : reg) : {a = b} + {a <> b}.
Proof. decide equality. Defined.

(** [ICR1] is a 16-bit register, the others are 8 bits wide. *)
Definition width (r : reg) : Z :=
  match r with ICR1 => 16 | _ => 8 end.

(** The register file, read as plain memory: a register reads back the
    value last written to it. *)
Definition regs : Type := reg -> Z.

Definition write (r : reg) (v : Z) (p : regs) : regs :=
  fun r' => if reg_eq_dec r r' then Word.unsigned (width r) v else p r'.

Module Io.

(** The bit numbers the set-up functions take from the device header
    behind [<avr/io.h>].  The header is not part of the repository, so the
    functions below take the bit numbers as a parameter. *)
Record bits : Type := mkBits {
  REFS0 : Z; ADLAR : Z;
  ADEN : Z; ADATE : Z; ADIE : Z; ADPS2 : Z; ADPS1 : Z; ADPS0 : Z; ADSC : Z;
  WGM21 : Z; CS21 : Z; OCIE2A : Z;
  INT1 : Z; INT0 : Z;
  ISC11 : Z; ISC10 : Z; ISC01 : Z; ISC00 : Z;
  DDB1 : Z; DDB2 : Z;
  COM1A1 : Z; COM1B1 : Z; WGM11 : Z;
  WGM13 : Z; WGM12 : Z; CS11 : Z
}.

(** The bit numbers of the ATmega328P, the device named in the header
    comment of main.c. *)
Definition iom328p : bits :=
  mkBits 6 5
         7 5 3 2 1 0 6
         1 1 1
         1 0
         3 2 1 0
         1 2
         7 5 1
         4 3 1.

(** Every bit number names a bit of an 8-bit register. *)
Definition in_byte (h : bits) : Prop :=
  (0 <= ADEN h < 8 /\ 0 <= ADIE h < 8 /\ 0 <= ADATE h < 8 /\ 0 <= ADSC h < 8) /\
  0 <= OCIE2A h < 8 /\
  (0 <= INT0 h < 8 /\ 0 <= INT1 h < 8).

End Io.

Definition ADCinit (h : Io.bits) (p : regs) : regs :=
  let p := write ADMUX (Z.shiftl 1 (Io.REFS0 h)) p in
  let p := write ADMUX (Z.lor (p ADMUX) (Z.shiftl 1 (Io.ADLAR h))) p in
  let p := write ADCSRA (Z.shiftl 1 (Io.ADEN h)) p in
  let p := write ADCSRA (Z.lor (p ADCSRA) (Z.shiftl 1 (Io.ADATE h))) p in
  let p := write ADCSRA (Z.lor (p ADCSRA) (Z.shiftl 1 (Io.ADIE h))) p in
  let p :=
    write ADCSRA
      (Z.lor (p ADCSRA)
         (Z.lor (Z.lor (Z.shiftl 1 (Io.ADPS2 h)) (Z.shiftl 1 (Io.ADPS1 h)))
            (Z.shiftl 1 (Io.ADPS0 h)))) p in
  write ADCSRA (Z.lor (p ADCSRA) (Z.shiftl 1 (Io.ADSC h))) p.

Definition MicrosTimerInit (h : Io.bits) (p : regs) : regs :=
  let p := write TCCR2A (Z.shiftl 1 (Io.WGM21 h)) p in
  let p := write TCCR2B (Z.shiftl 1 (Io.CS21 h)) p in
  let p := write TIMSK2 (Z.shiftl 1 (Io.OCIE2A h)) p in
  write OCR2A 20 p.

Definition PhotoInterruptersInit (h : Io.bits) (p : regs) : regs :=
  let p :=
    write EIMSK (Z.lor (Z.shiftl 1 (Io.INT1 h)) (Z.shiftl 1 (Io.INT0 h))) p in
  write EICRA
    (Z.lor (Z.lor (Z.lor (Z.shiftl 0 (Io.ISC11 h)) (Z.shiftl 1 (Io.ISC10 h)))
              (Z.shiftl 0 (Io.ISC01 h)))
       (Z.shiftl 1 (Io.ISC00 h))) p.

Definition ServoPWMinit (h : Io.bits) (p : regs) : regs :=
  let p :=
    write DDRB (Z.lor (Z.shiftl 1 (Io.DDB1 h)) (Z.shiftl 1 (Io.DDB2 h))) p in
  let p :=
    write TCCR1A
      (Z.lor (Z.lor (Z.shiftl 1 (Io.COM1A1 h)) (Z.shiftl 1 (Io.COM1B1 h)))
         (Z.shiftl 1 (Io.WGM11 h))) p in
  let p :=
    write TCCR1B (Z.lor (Z.shiftl 1 (Io.WGM13 h)) (Z.shiftl 1 (Io.WGM12 h))) p in
  let p := write TCCR1B (Z.lor (p TCCR1B) (Z.shiftl 1 (Io.CS11 h))) p in
  write ICR1 40000 p.

(** [main]: the four set-up calls, then [sei()] and the idle loop, during
    which the interrupts [tr] are served.  The result is the register
    file and the program state once they have been. *)
Definition main (h : Io.bits) (p : regs) (tr : list event) : regs * state :=
  let p := ADCinit h p in
  let p := MicrosTimerInit h p in
  let p := PhotoInterruptersInit h p in
  let p := ServoPWMinit h p in
  (p, run tr init).

(** ** Predicates used by the properties below *)

(** No control cycle in a trace. *)
Definition no_adc (tr : list event) : bool :=
  forallb (fun e => match e with ADC _ => false | _ => true end) tr.

(** The state with the two samples exchanged. *)
Definition swap_samples (s : state) : state :=
  set_rearWheelPeriod (frontWheelPeriod s)
    (set_frontWheelPeriod (rearWheelPeriod s) s).

(** Every variable holds a value of its declared type, the
    classification is one of its three values, and each compare register
    holds its reset value or a command. *)
Definition in_range (s : state) : Prop :=
  (0 <= microsFrontWheel s < 2 ^ 32 /\ 0 <= microsRearWheel s < 2 ^ 32) /\
  (0 <= startFrontWheel s < 2 ^ 32 /\ 0 <= startRearWheel s < 2 ^ 32) /\
  (0 <= frontWheelPeriod s < 2 ^ 32 /\ 0 <= rearWheelPeriod s < 2 ^ 32) /\
  (checkWheelsFrequenciesReturnValue s = Balanced \/
   checkWheelsFrequenciesReturnValue s = FrontSlower \/
   checkWheelsFrequenciesReturnValue s = RearSlower) /\
  (OCR1A s = 0 \/ 1000 <= OCR1A s <= 1000 + 235 * 16) /\
  (OCR1B s = 0 \/ 1000 <= OCR1B s <= 1000 + 235 * 16).

(** ** Basic facts *)

Lemma Unknown_value : Unknown = 2 ^ 32 - 1.
Proof. reflexivity. Qed.

Lemma both_freshb_spec (s : state) : both_freshb s = true <-> both_fresh s.
Proof.
  unfold both_freshb, both_fresh, Unknown.
  rewrite negb_true_iff, orb_false_iff, !Z.eqb_neq. tauto.
Qed.

Lemma checkWheelsFrequencies_hold (s : state) :
  both_freshb s = false -> checkWheelsFrequencies s = s.
Proof.
  unfold both_freshb, checkWheelsFrequencies. intros H.
  apply negb_false_iff in H. now rewrite H.
Qed.

Lemma checkWheelsFrequencies_fresh (s : state) :
  both_freshb s = true ->
  checkWheelsFrequencies s =
  mkState (microsFrontWheel s) (microsRearWheel s) (startFrontWheel s)
          (startRearWheel s) Unknown Unknown (classify (difference s))
          (OCR1A s) (OCR1B s).
Proof.
  unfold both_freshb, checkWheelsFrequencies. intros H.
  apply negb_true_iff in H. rewrite H.
  change (- DIFFERENCE_THRESHOLD) with (-50).
  change DIFFERENCE_THRESHOLD with 50.
  unfold classify, FrontSlower, RearSlower, Balanced. cbv zeta.
  destruct (difference s >? 50); [reflexivity|].
  destruct (difference s <? -50); reflexivity.
Qed.

(** ** Arithmetic of the command computation *)

Lemma clamp_value_range (value : Z) : 0 <= clamp_value value <= 235.
Proof.
  unfold clamp_value.
  destruct (Z.gtb_spec value 235); [lia|].
  destruct (Z.ltb_spec value 0); lia.
Qed.

Lemma clamp_value_clamp (value : Z) : clamp_value value = clamp value 0 235.
Proof.
  unfold clamp_value, clamp.
  destruct (Z.gtb_spec value 235); [lia|].
  destruct (Z.ltb_spec value 0); lia.
Qed.

Lemma shiftl_4 (value : Z) : Z.shiftl value 4 = value * 16.
Proof. now rewrite Z.shiftl_mul_pow2 by lia. Qed.

Lemma uint16_t_small (z : Z) : 0 <= z < 65536 -> uint16_t z = z.
Proof. intros H. unfold uint16_t, Word.unsigned. apply Z.mod_small. lia. Qed.

Lemma uint32_t_small (z : Z) : 0 <= z < 2 ^ 32 -> uint32_t z = z.
Proof. intros H. unfold uint32_t, Word.unsigned. now apply Z.mod_small. Qed.

Lemma uint32_t_range (z : Z) : 0 <= uint32_t z < 2 ^ 32.
Proof. unfold uint32_t, Word.unsigned. apply Z.mod_pos_bound. lia. Qed.

(** The command written to a channel: the register keeps it unchanged. *)
Lemma command_fits (c : bool) (value : Z) :
  uint16_t (1000 + (if c then 0 else Z.shiftl (clamp_value value) 4)) =
  1000 + (if c then 0 else clamp_value value * 16).
Proof.
  rewrite shiftl_4. pose proof (clamp_value_range value).
  apply uint16_t_small. destruct c; lia.
Qed.

(** ** What one call of setServoPosition leaves in each variable *)

Lemma setServoPosition_class (value : Z) (s : state) :
  checkWheelsFrequenciesReturnValue (setServoPosition value s) =
  checkWheelsFrequenciesReturnValue (checkWheelsFrequencies s).
Proof. reflexivity. Qed.

Lemma setServoPosition_OCR1A (value : Z) (s : state) :
  OCR1A (setServoPosition value s) =
  1000 + (if checkWheelsFrequenciesReturnValue (checkWheelsFrequencies s) =? 1
          then 0 else clamp_value value * 16).
Proof. unfold setServoPosition. cbn. apply command_fits. Qed.

Lemma setServoPosition_OCR1B (value : Z) (s : state) :
  OCR1B (setServoPosition value s) =
  1000 + (if checkWheelsFrequenciesReturnValue (checkWheelsFrequencies s) =? -1
          then 0 else clamp_value value * 16).
Proof. unfold setServoPosition. cbn. apply command_fits. Qed.

Lemma setServoPosition_period (value : Z) (w : wheel) (s : state) :
  period w (setServoPosition value s) = period w (checkWheelsFrequencies s).
Proof. destruct w; reflexivity. Qed.

Lemma setServoPosition_micros (value : Z) (w : wheel) (s : state) :
  micros w (setServoPosition value s) = micros w s /\
  start w (setServoPosition value s) = start w s.
Proof.
  unfold setServoPosition, checkWheelsFrequencies.
  destruct (_ || _); [destruct w; split; reflexivity|].
  cbv zeta. destruct (_ >? _); [destruct w; split; reflexivity|].
  destruct (_ <? _); destruct w; split; reflexivity.
Qed.

(** ** The comparator *)

Lemma not_fresh_hold (s : state) :
  frontWheelPeriod s = Unknown \/ rearWheelPeriod s = Unknown ->
  both_freshb s = false.
Proof.
  unfold both_freshb, Unknown. intros [H | H]; rewrite H, Z.eqb_refl;
    rewrite ?orb_true_r; reflexivity.
Qed.

Lemma int32_t_small (z : Z) : - 2 ^ 31 <= z < 2 ^ 31 -> int32_t (uint32_t z) = z.
Proof.
  intros H. unfold int32_t, uint32_t, Word.signed, Word.unsigned.
  rewrite Z.mod_mod by lia.
  change (2 ^ (32 - 1)) with (2 ^ 31).
  destruct (Z.ltb_spec (z mod 2 ^ 32) (2 ^ 31)) as [L | L];
    revert L; change (2 ^ 32) with 4294967296; change (2 ^ 31) with 2147483648 in *;
    intros L; Z.div_mod_to_equations; lia.
Qed.

(** The spec's three worked classifications. *)
Example classify_120_60 :
  checkWheelsFrequenciesReturnValue
    (checkWheelsFrequencies (mkState 0 0 0 0 120 60 0 0 0)) = FrontSlower.
Proof. reflexivity. Qed.

Example classify_60_120 :
  checkWheelsFrequenciesReturnValue
    (checkWheelsFrequencies (mkState 0 0 0 0 60 120 0 0 0)) = RearSlower.
Proof. reflexivity. Qed.

Example classify_80_100 :
  checkWheelsFrequenciesReturnValue
    (checkWheelsFrequencies (mkState 0 0 0 0 80 100 1 0 0)) = Balanced.
Proof. reflexivity. Qed.

(** ** Claims about the comparator *)

(** C1, counterexample.  After a repeated falling edge the front sample is
    4294967246 and the rear sample 170: both are fresh and the front
    width minus the rear width is 4294967076, far above 50, yet the
    comparator stores RearSlower, because the difference is taken as a
    32-bit signed value (-220). *)
Lemma plain_difference_counterexample :
  let s := run repeated_fall init in
  frontWheelPeriod s = 4294967246 /\
  rearWheelPeriod s = 170 /\
  both_fresh s /\
  frontWheelPeriod s - rearWheelPeriod s > 50 /\
  checkWheelsFrequenciesReturnValue (checkWheelsFrequencies s) = RearSlower /\
  checkWheelsFrequenciesReturnValue (checkWheelsFrequencies s) <> FrontSlower.
Proof.
  vm_compute. repeat split; congruence.
Qed.

(** C1, amended.  When both samples are fresh, the comparator stores the
    classification of [d], the front width minus the rear width reduced
    to a signed 32-bit value: FrontSlower when [d > 50], RearSlower when
    [d < -50], Balanced otherwise.  [d] is the plain difference whenever
    that difference fits in 32 signed bits. *)
Theorem classification_of_signed_difference (s : state) :
  both_fresh s ->
  let d := difference s in
  let c := checkWheelsFrequenciesReturnValue (checkWheelsFrequencies s) in
  (d > 50 -> c = FrontSlower) /\
  (d < -50 -> c = RearSlower) /\
  (-50 <= d <= 50 -> c = Balanced) /\
  (- 2 ^ 31 <= frontWheelPeriod s - rearWheelPeriod s < 2 ^ 31 ->
   d = frontWheelPeriod s - rearWheelPeriod s).
Proof.
  intros F d c. subst c.
  apply both_freshb_spec in F.
  rewrite (checkWheelsFrequencies_fresh s F). cbn.
  fold d. unfold classify.
  repeat split.
  - intros H. destruct (Z.gtb_spec d 50); [reflexivity | lia].
  - intros H. destruct (Z.gtb_spec d 50); [lia|].
    destruct (Z.ltb_spec d (-50)); [reflexivity | lia].
  - intros H. destruct (Z.gtb_spec d 50); [lia|].
    destruct (Z.ltb_spec d (-50)); [lia | reflexivity].
  - intros H. subst d. unfold difference. now apply int32_t_small.
Qed.

Lemma classification_of_signed_difference_witness :
  let s := mkState 0 0 0 0 120 60 0 0 0 in
  both_fresh s /\
  difference s > 50 /\
  checkWheelsFrequenciesReturnValue (checkWheelsFrequencies s) = FrontSlower.
Proof.
  assert (F : both_fresh (mkState 0 0 0 0 120 60 0 0 0))
    by (split; vm_compute; congruence).
  assert (D : difference (mkState 0 0 0 0 120 60 0 0 0) > 50) by reflexivity.
  split; [exact F|]. split; [exact D|].
  exact (proj1 (classification_of_signed_difference _ F) D).
Defined.

(** C2.  When at least one sample is Unknown, the comparator leaves the
    stored classification as it was, and so does the control cycle that
    calls it. *)
Theorem hold_last_decision (s : state) :
  frontWheelPeriod s = Unknown \/ rearWheelPeriod s = Unknown ->
  checkWheelsFrequenciesReturnValue (checkWheelsFrequencies s) =
    checkWheelsFrequenciesReturnValue s /\
  forall ADCH,
    checkWheelsFrequenciesReturnValue (ADC_vect ADCH s) =
    checkWheelsFrequenciesReturnValue s.
Proof.
  intros H. apply not_fresh_hold in H.
  split.
  - now rewrite checkWheelsFrequencies_hold.
  - intros ADCH. unfold ADC_vect.
    now rewrite setServoPosition_class, checkWheelsFrequencies_hold.
Qed.

Lemma hold_last_decision_witness :
  let s := mkState 0 0 0 0 120 Unknown FrontSlower 0 0 in
  checkWheelsFrequenciesReturnValue (checkWheelsFrequencies s) = FrontSlower.
Proof.
  exact (proj1 (hold_last_decision (mkState 0 0 0 0 120 Unknown FrontSlower 0 0)
                  (or_intror eq_refl))).
Defined.

(** ** Claims about the command computation *)

(** C3.  In a control cycle called with any value, whose clamped value is
    the baseline: if the classification after the cycle's comparator
    evaluation is FrontSlower the front command is 1000 and the rear
    command 1000 + baseline*16; if it is RearSlower the rear command is
    1000 and the front command 1000 + baseline*16; if it is Balanced both
    commands are 1000 + baseline*16. *)
Theorem commands_by_classification (value : Z) (s : state) :
  let s' := setServoPosition value s in
  let baseline := clamp_value value in
  let c := checkWheelsFrequenciesReturnValue s' in
  c = checkWheelsFrequenciesReturnValue (checkWheelsFrequencies s) /\
  (c = FrontSlower ->
   OCR1A s' = 1000 /\ OCR1B s' = 1000 + baseline * 16) /\
  (c = RearSlower ->
   OCR1B s' = 1000 /\ OCR1A s' = 1000 + baseline * 16) /\
  (c = Balanced ->
   OCR1A s' = 1000 + baseline * 16 /\ OCR1B s' = 1000 + baseline * 16).
Proof.
  intros s' baseline c. subst s' baseline c.
  rewrite setServoPosition_OCR1A, setServoPosition_OCR1B, setServoPosition_class.
  unfold FrontSlower, RearSlower, Balanced.
  split; [reflexivity|].
  repeat split; rewrite H; cbn; lia.
Qed.

Lemma commands_by_classification_witness :
  let s := mkState 0 0 0 0 120 60 0 0 0 in
  let s' := setServoPosition 100 s in
  checkWheelsFrequenciesReturnValue s' = FrontSlower /\
  OCR1A s' = 1000 /\ OCR1B s' = 1000 + 100 * 16.
Proof.
  split; [reflexivity|].
  exact (proj1 (proj2 (commands_by_classification 100 (mkState 0 0 0 0 120 60 0 0 0)))
           eq_refl).
Defined.

(** C4.  For every lever reading [r] in [0,255], the baseline of the
    control cycle run for that reading is clamp(128 - r, 0, 235); it is 0
    for readings of 128 and above; and it is the value the cycle scales
    into the command of every wheel that is not classified slower. *)
Theorem baseline_of_lever_reading (r : Z) (s : state) :
  0 <= r <= 255 ->
  let baseline := clamp_value (128 - r) in
  let s' := ADC_vect r s in
  baseline = clamp (128 - r) 0 235 /\
  (128 <= r -> baseline = 0) /\
  (r <= 128 -> baseline = 128 - r) /\
  OCR1A s' =
    (if checkWheelsFrequenciesReturnValue s' =? FrontSlower then 1000
     else 1000 + clamp (128 - r) 0 235 * 16) /\
  OCR1B s' =
    (if checkWheelsFrequenciesReturnValue s' =? RearSlower then 1000
     else 1000 + clamp (128 - r) 0 235 * 16).
Proof.
  intros R baseline s'. subst baseline s'. unfold ADC_vect.
  rewrite setServoPosition_OCR1A, setServoPosition_OCR1B, setServoPosition_class.
  rewrite !clamp_value_clamp.
  unfold FrontSlower, RearSlower.
  split; [reflexivity|].
  split; [unfold clamp; lia|].
  split; [unfold clamp; lia|].
  split.
  - destruct (_ =? 1); lia.
  - destruct (_ =? -1); lia.
Qed.

Lemma baseline_of_lever_reading_witness :
  clamp_value (128 - 0) = clamp (128 - 0) 0 235 /\
  OCR1A (ADC_vect 0 init) = 1000 + 128 * 16.
Proof.
  pose proof (baseline_of_lever_reading 0 init ltac:(lia)) as H.
  cbv zeta in H. split; [exact (proj1 H)|].
  exact (proj1 (proj2 (proj2 (proj2 H)))).
Defined.

(** C5.  For every integer passed to setServoPosition, the clamped
    intensity lies in [0,235]; each of the two commands written lies in
    [1000, 1000 + 235*16] and is 1000 + intensity*16, or 1000 for the
    wheel classified slower. *)
Theorem commands_in_range (value : Z) (s : state) :
  let s' := setServoPosition value s in
  let intensity := clamp_value value in
  0 <= intensity <= 235 /\
  1000 <= OCR1A s' <= 1000 + 235 * 16 /\
  1000 <= OCR1B s' <= 1000 + 235 * 16 /\
  OCR1A s' =
    (if checkWheelsFrequenciesReturnValue s' =? FrontSlower then 1000
     else 1000 + intensity * 16) /\
  OCR1B s' =
    (if checkWheelsFrequenciesReturnValue s' =? RearSlower then 1000
     else 1000 + intensity * 16).
Proof.
  intros s' intensity. subst s' intensity.
  rewrite setServoPosition_OCR1A, setServoPosition_OCR1B, setServoPosition_class.
  pose proof (clamp_value_range value) as R.
  unfold FrontSlower, RearSlower.
  repeat split; try lia;
    try (destruct (_ =? 1); lia); destruct (_ =? -1); lia.
Qed.

(** The spec's two end-to-end scenarios. *)
Example lever_128_minimum (s : state) :
  OCR1A (ADC_vect 128 s) = 1000 /\ OCR1B (ADC_vect 128 s) = 1000.
Proof.
  unfold ADC_vect.
  rewrite setServoPosition_OCR1A, setServoPosition_OCR1B.
  change (clamp_value (128 - 128)) with 0.
  split; destruct (_ =? _); reflexivity.
Qed.

Example lever_0_balanced :
  OCR1A (ADC_vect 0 init) = 1000 + 128 * 16 /\
  OCR1B (ADC_vect 0 init) = 1000 + 128 * 16.
Proof. split; reflexivity. Qed.

(** ** One handler at a time: what each interrupt changes *)

Lemma run_app (tr1 tr2 : list event) (s : state) :
  run (tr1 ++ tr2) s = run tr2 (run tr1 s).
Proof. apply fold_left_app. Qed.

Lemma run_cons (e : event) (tr : list event) (s : state) :
  run (e :: tr) s = run tr (step s e).
Proof. reflexivity. Qed.

Lemma setServoPosition_hold (value : Z) (s : state) :
  both_freshb s = false ->
  checkWheelsFrequenciesReturnValue (setServoPosition value s) =
    checkWheelsFrequenciesReturnValue s /\
  frontWheelPeriod (setServoPosition value s) = frontWheelPeriod s /\
  rearWheelPeriod (setServoPosition value s) = rearWheelPeriod s.
Proof.
  intros H. unfold setServoPosition.
  rewrite (checkWheelsFrequencies_hold s H). now cbn.
Qed.

Lemma unknown_not_fresh (w : wheel) (s : state) :
  period w s = Unknown -> both_freshb s = false.
Proof.
  intros H. apply not_fresh_hold. destruct w; [left | right]; exact H.
Qed.

(** An interrupt that is not a falling edge of wheel [w] finds the
    sample of [w] Unknown and leaves it so; it keeps the classification;
    and unless it is a falling edge of the other wheel, it keeps the
    other sample too. *)
Lemma step_hold (w : wheel) (s : state) (e : event) :
  period w s = Unknown ->
  is_fall w e = false ->
  period w (step s e) = Unknown /\
  checkWheelsFrequenciesReturnValue (step s e) =
    checkWheelsFrequenciesReturnValue s /\
  (is_fall (other w) e = false ->
   period (other w) (step s e) = period (other w) s).
Proof.
  intros U NF.
  destruct e as [r | | p | p].
  - (* control cycle *)
    pose proof (setServoPosition_hold (128 - r) s (unknown_not_fresh w s U))
      as (C & PF & PR).
    cbn [step]. unfold ADC_vect.
    destruct w; cbn [period other] in *; rewrite ?PF, ?PR; auto.
  - (* timer *)
    destruct w; cbn in *; auto.
  - (* front sensor *)
    cbn [step]. unfold INT0_vect.
    destruct w; cbn [is_fall other] in *.
    + apply negb_false_iff in NF. unfold high in NF. rewrite NF. cbn. auto.
    + destruct (negb _) eqn:E; cbn; repeat split; auto.
      unfold high. rewrite E. discriminate.
  - (* rear sensor *)
    cbn [step]. unfold INT1_vect.
    destruct w; cbn [is_fall other] in *.
    + destruct (negb _) eqn:E; cbn; repeat split; auto.
      unfold high. rewrite E. discriminate.
    + apply negb_false_iff in NF. unfold high in NF. rewrite NF. cbn. auto.
Qed.

Lemma run_hold (w : wheel) (tr : list event) :
  forall s,
  period w s = Unknown ->
  no_fall w tr = true ->
  period w (run tr s) = Unknown /\
  checkWheelsFrequenciesReturnValue (run tr s) =
    checkWheelsFrequenciesReturnValue s /\
  (no_fall (other w) tr = true ->
   period (other w) (run tr s) = period (other w) s).
Proof.
  induction tr as [| e tr IH]; intros s U NF.
  - cbn. auto.
  - cbn [no_fall forallb] in NF. apply andb_true_iff in NF as [NFe NFtr].
    apply negb_true_iff in NFe.
    destruct (step_hold w s e U NFe) as (U' & C' & O').
    destruct (IH (step s e) U' NFtr) as (U'' & C'' & O'').
    rewrite run_cons. split; [exact U''|]. split; [congruence|].
    intros NO. cbn [no_fall forallb] in NO.
    apply andb_true_iff in NO as [NOe NOtr].
    apply negb_true_iff in NOe.
    rewrite (O'' NOtr). now apply O'.
Qed.

(** An interrupt other than an edge of wheel [w] keeps the start mark of
    [w]; the timer advances its counter by one, the others keep it. *)
Lemma step_no_edge (w : wheel) (s : state) (e : event) :
  is_edge w e = false ->
  start w (step s e) = start w s /\
  micros w (step s e) =
    match e with
    | TIMER2_COMPA => uint32_t (micros w s + 1)
    | _ => micros w s
    end.
Proof.
  intros NE. destruct e as [r | | p | p].
  - cbn [step]. unfold ADC_vect.
    destruct (setServoPosition_micros (128 - r) w s); auto.
  - destruct w; cbn; auto.
  - destruct w; [discriminate|].
    cbn [step]. unfold INT0_vect. destruct (negb _); cbn; auto.
  - destruct w; [|discriminate].
    cbn [step]. unfold INT1_vect. destruct (negb _); cbn; auto.
Qed.

Lemma count_ticks_cons (e : event) (tr : list event) :
  count_ticks (e :: tr) =
  match e with TIMER2_COMPA => 1 | _ => 0 end + count_ticks tr.
Proof.
  unfold count_ticks. destruct e; cbn [filter length]; lia.
Qed.

Lemma run_no_edge (w : wheel) (tr : list event) :
  forall s,
  0 <= micros w s < 2 ^ 32 ->
  no_edge w tr = true ->
  start w (run tr s) = start w s /\
  micros w (run tr s) = uint32_t (micros w s + count_ticks tr).
Proof.
  induction tr as [| e tr IH]; intros s R NE.
  - cbn [run fold_left]. change (count_ticks []) with 0.
    rewrite Z.add_0_r, uint32_t_small by exact R. auto.
  - cbn [no_edge forallb] in NE. apply andb_true_iff in NE as [NEe NEtr].
    apply negb_true_iff in NEe.
    destruct (step_no_edge w s e NEe) as (S' & M').
    assert (R' : 0 <= micros w (step s e) < 2 ^ 32).
    { rewrite M'. destruct e; try exact R. apply uint32_t_range. }
    destruct (IH (step s e) R' NEtr) as (S'' & M'').
    rewrite run_cons, count_ticks_cons. split; [congruence|].
    rewrite M'', M'. destruct e; try (f_equal; lia).
    unfold uint32_t, Word.unsigned.
    rewrite Zplus_mod_idemp_l. f_equal. lia.
Qed.

(** What the two edge branches do to their own channel. *)
Lemma step_rise (w : wheel) (s : state) (PIND : Z) :
  high w PIND = true ->
  start w (step s (edge w PIND)) = micros w s /\
  micros w (step s (edge w PIND)) = micros w s /\
  period w (step s (edge w PIND)) = period w s.
Proof.
  intros H. unfold high in H.
  destruct w; cbn [step edge]; unfold INT0_vect, INT1_vect;
    rewrite H; cbn; auto.
Qed.

Lemma step_fall (w : wheel) (s : state) (PIND : Z) :
  high w PIND = false ->
  period w (step s (edge w PIND)) = uint32_t (micros w s - start w s) /\
  micros w (step s (edge w PIND)) = 0 /\
  period (other w) (step s (edge w PIND)) = period (other w) s /\
  checkWheelsFrequenciesReturnValue (step s (edge w PIND)) =
    checkWheelsFrequenciesReturnValue s.
Proof.
  intros H. unfold high in H.
  destruct w; cbn [step edge]; unfold INT0_vect, INT1_vect;
    rewrite H; cbn; auto.
Qed.

(** ** Claims about edge capture *)

(** C6, counterexample.  A rising edge of the front wheel at counter 0,
    five timer interrupts, a second rising edge, five more timer
    interrupts: nothing in between resets the counter (no falling edge),
    and it reads 10 when the falling edge comes.  The sample published is
    5, not 10: the second rising edge has replaced the start mark 0 by 5
    (line 124). *)
Lemma second_rising_edge_counterexample :
  let tr := ticks 5 ++ [INT0 4] ++ ticks 5 in
  let s1 := run tr (step init (INT0 4)) in
  let s2 := step s1 (INT0 0) in
  microsFrontWheel init = 0 /\
  high Front 4 = true /\
  high Front 0 = false /\
  no_fall Front tr = true /\
  microsFrontWheel s1 = 10 /\
  frontWheelPeriod s2 = 5 /\
  frontWheelPeriod s2 <> microsFrontWheel s1.
Proof.
  vm_compute. repeat split; congruence.
Qed.

(** C6, amended.  For each wheel: a rising edge taken while the wheel's
    counter reads 0, then any interrupts other than edges of that wheel
    (so the counter is not reset and the start mark not replaced in
    between), then a falling edge taken while the counter reads N,
    publish exactly N as the wheel's sample and leave the counter at 0.
    N is the number of timer interrupts in between, modulo 2^32. *)
Theorem pulse_width_round_trip
    (w : wheel) (s : state) (tr : list event) (hi lo : Z) :
  high w hi = true ->
  high w lo = false ->
  micros w s = 0 ->
  no_edge w tr = true ->
  let s1 := run tr (step s (edge w hi)) in
  let N := micros w s1 in
  let s2 := step s1 (edge w lo) in
  period w s2 = N /\ micros w s2 = 0 /\ N = uint32_t (count_ticks tr).
Proof.
  intros HI LO Z0 NE s1 N s2.
  destruct (step_rise w s hi HI) as (S0 & M0 & _).
  rewrite Z0 in S0, M0.
  assert (R0 : 0 <= micros w (step s (edge w hi)) < 2 ^ 32) by (rewrite M0; lia).
  destruct (run_no_edge w tr _ R0 NE) as (S1 & M1).
  fold s1 in S1, M1. rewrite S0 in S1. rewrite M0 in M1. cbn [Z.add] in M1.
  destruct (step_fall w s1 lo LO) as (P2 & M2 & _).
  fold s2 in P2, M2. subst N.
  split; [|split; [exact M2 | exact M1]].
  rewrite P2, S1, Z.sub_0_r, M1.
  apply uint32_t_small, uint32_t_range.
Qed.

Lemma pulse_width_round_trip_witness :
  let s2 := run ([INT1 8] ++ ticks 7 ++ [ADC 40; INT0 4] ++ ticks 5 ++ [INT1 0]) init in
  rearWheelPeriod s2 = 12 /\ microsRearWheel s2 = 0.
Proof.
  pose proof (pulse_width_round_trip Rear init
                (ticks 7 ++ [ADC 40; INT0 4] ++ ticks 5) 8 0
                eq_refl eq_refl eq_refl eq_refl) as H.
  cbv zeta in H. destruct H as (P & M & N).
  split; [|exact M].
  etransitivity; [exact P|]. etransitivity; [exact N|]. reflexivity.
Defined.

(** ** Claims about samples and the stored classification over time *)

(** C7.  An evaluation that finds both samples fresh resets both to
    Unknown in that same evaluation, also when it runs inside a control
    cycle.  The measurements are gone afterwards: evaluating again changes
    nothing, and over any later interrupts the stored classification
    stays as it is and the sample of a wheel stays Unknown for as long as
    that wheel publishes no new measurement. *)
Theorem samples_consumed_once (s : state) :
  both_fresh s ->
  let s' := checkWheelsFrequencies s in
  frontWheelPeriod s' = Unknown /\
  rearWheelPeriod s' = Unknown /\
  (forall ADCH,
     frontWheelPeriod (ADC_vect ADCH s) = Unknown /\
     rearWheelPeriod (ADC_vect ADCH s) = Unknown) /\
  checkWheelsFrequencies s' = s' /\
  (forall w tr,
     no_fall w tr = true ->
     period w (run tr s') = Unknown /\
     checkWheelsFrequenciesReturnValue (run tr s') =
       checkWheelsFrequenciesReturnValue s').
Proof.
  intros F s'. apply both_freshb_spec in F.
  assert (E := checkWheelsFrequencies_fresh s F). fold s' in E.
  assert (UF : frontWheelPeriod s' = Unknown) by now rewrite E.
  assert (UR : rearWheelPeriod s' = Unknown) by now rewrite E.
  split; [exact UF|]. split; [exact UR|]. split; [|split].
  - intros ADCH. unfold ADC_vect.
    rewrite (setServoPosition_period _ Front), (setServoPosition_period _ Rear).
    fold s'. auto.
  - apply checkWheelsFrequencies_hold, not_fresh_hold. now left.
  - intros w tr NF.
    assert (U : period w s' = Unknown) by (destruct w; assumption).
    destruct (run_hold w tr s' U NF) as (P & C & _). auto.
Qed.

Lemma samples_consumed_once_witness :
  let s := mkState 0 0 0 0 120 60 0 0 0 in
  both_fresh s /\
  frontWheelPeriod (checkWheelsFrequencies s) = Unknown /\
  rearWheelPeriod (checkWheelsFrequencies s) = Unknown.
Proof.
  assert (F : both_fresh (mkState 0 0 0 0 120 60 0 0 0))
    by (split; vm_compute; congruence).
  pose proof (samples_consumed_once _ F) as H. cbv zeta in H.
  split; [exact F|]. split; [exact (proj1 H) | exact (proj1 (proj2 H))].
Defined.

(** Before the first comparing evaluation the classification is the one
    the trace started with. *)
Lemma holding_class (tr : list event) :
  forall s,
  holding tr s = true ->
  checkWheelsFrequenciesReturnValue (run tr s) =
  checkWheelsFrequenciesReturnValue s.
Proof.
  induction tr as [| e tr IH]; intros s H; [reflexivity|].
  cbn [holding] in H. apply andb_true_iff in H as [He Htr].
  rewrite run_cons, (IH _ Htr).
  destruct e as [r | | p | p].
  - apply negb_true_iff in He. cbn [step]. unfold ADC_vect.
    apply (setServoPosition_hold _ _ He).
  - reflexivity.
  - cbn [step]. unfold INT0_vect. now destruct (negb _).
  - cbn [step]. unfold INT1_vect. now destruct (negb _).
Qed.

Lemma holding_app (tr1 tr2 : list event) :
  forall s,
  holding (tr1 ++ tr2) s = holding tr1 s && holding tr2 (run tr1 s).
Proof.
  induction tr1 as [| e tr1 IH]; intros s; [reflexivity|].
  cbn [app holding]. rewrite IH, run_cons. now rewrite andb_assoc.
Qed.

(** C8.  Over any sequence of interrupts from startup in which no control
    cycle finds both samples fresh, the classification is Balanced at the
    end, and every control cycle of the sequence writes the
    baseline-scaled command 1000 + baseline*16 to both channels. *)
Theorem balanced_until_first_comparison (tr : list event) :
  holding tr init = true ->
  checkWheelsFrequenciesReturnValue (run tr init) = Balanced /\
  (forall pre ADCH post,
     tr = pre ++ ADC ADCH :: post ->
     let s' := run (pre ++ [ADC ADCH]) init in
     checkWheelsFrequenciesReturnValue s' = Balanced /\
     OCR1A s' = 1000 + clamp_value (128 - ADCH) * 16 /\
     OCR1B s' = 1000 + clamp_value (128 - ADCH) * 16).
Proof.
  intros H. split; [now rewrite holding_class|].
  intros pre ADCH post -> s'.
  rewrite holding_app in H. apply andb_true_iff in H as [Hpre Hrest].
  cbn [holding] in Hrest. apply andb_true_iff in Hrest as [Hadc _].
  apply negb_true_iff in Hadc.
  pose proof (holding_class pre init Hpre) as C.
  change (checkWheelsFrequenciesReturnValue init) with 0 in C.
  subst s'. rewrite run_app. cbn [run fold_left step]. unfold ADC_vect.
  rewrite setServoPosition_OCR1A, setServoPosition_OCR1B, setServoPosition_class.
  rewrite (checkWheelsFrequencies_hold _ Hadc).
  change (fold_left step pre init) with (run pre init). rewrite C.
  repeat split.
Qed.

Lemma balanced_until_first_comparison_witness :
  let tr := ticks 3 ++ [INT0 4] ++ ticks 9 ++ [INT0 0; ADC 28; TIMER2_COMPA; ADC 200] in
  checkWheelsFrequenciesReturnValue (run tr init) = Balanced /\
  OCR1A (run (ticks 3 ++ [INT0 4] ++ ticks 9 ++ [INT0 0; ADC 28]) init) = 1000 + 100 * 16.
Proof.
  pose proof (balanced_until_first_comparison
                (ticks 3 ++ [INT0 4] ++ ticks 9 ++ [INT0 0; ADC 28; TIMER2_COMPA; ADC 200])
                eq_refl) as (C & O).
  split; [exact C|].
  exact (proj1 (proj2 (O (ticks 3 ++ [INT0 4] ++ ticks 9 ++ [INT0 0]) 28
                         [TIMER2_COMPA; ADC 200] eq_refl))).
Defined.



(** C10.  Unknown is the all-ones 32-bit value 2^32 - 1.  A falling edge
    whose computed width is 2^32 - 1 publishes a sample the comparator
    cannot tell from Unknown: the evaluation that follows changes nothing,
    and over any later interrupts without a new falling edge of that wheel
    the sample stays 2^32 - 1 (never consumed) and the classification
    stays as it was (never updated). *)
Theorem all_ones_width_is_unknown :
  Unknown = 2 ^ 32 - 1 /\
  Unknown = Z.ones 32 /\
  frontWheelPeriod init = Unknown /\
  rearWheelPeriod init = Unknown /\
  (forall w s lo,
     high w lo = false ->
     uint32_t (micros w s - start w s) = 2 ^ 32 - 1 ->
     let s1 := step s (edge w lo) in
     period w s1 = Unknown /\
     checkWheelsFrequencies s1 = s1 /\
     (forall tr,
        no_fall w tr = true ->
        period w (run tr s1) = 2 ^ 32 - 1 /\
        checkWheelsFrequenciesReturnValue (run tr s1) =
          checkWheelsFrequenciesReturnValue s)).
Proof.
  split; [reflexivity|]. split; [reflexivity|].
  split; [reflexivity|]. split; [reflexivity|].
  intros w s lo LO W s1.
  destruct (step_fall w s lo LO) as (P & _ & _ & C). fold s1 in P, C.
  assert (U : period w s1 = Unknown) by (rewrite P, W; reflexivity).
  split; [exact U|]. split.
  - apply checkWheelsFrequencies_hold, (unknown_not_fresh w), U.
  - intros tr NF. destruct (run_hold w tr s1 U NF) as (P' & C' & _).
    split; [rewrite P'; reflexivity | congruence].
Qed.

Lemma all_ones_width_is_unknown_witness :
  let s := run [TIMER2_COMPA; INT0 4; INT0 0] init in
  let s1 := step s (INT0 0) in
  uint32_t (microsFrontWheel s - startFrontWheel s) = 2 ^ 32 - 1 /\
  frontWheelPeriod s1 = Unknown /\
  frontWheelPeriod (run (ticks 4 ++ [INT1 0; ADC 0; ADC 90]) s1) = 2 ^ 32 - 1.
Proof.
  assert (W : uint32_t (micros Front (run [TIMER2_COMPA; INT0 4; INT0 0] init)
                        - start Front (run [TIMER2_COMPA; INT0 4; INT0 0] init))
              = 2 ^ 32 - 1) by reflexivity.
  destruct all_ones_width_is_unknown as (_ & _ & _ & _ & K).
  pose proof (K Front (run [TIMER2_COMPA; INT0 4; INT0 0] init) 0 eq_refl W) as K'.
  cbv zeta in K'. destruct K' as (U & _ & T).
  split; [exact W|]. split; [exact U|].
  exact (proj1 (T (ticks 4 ++ [INT1 0; ADC 0; ADC 90]) eq_refl)).
Defined.

(** ** Further properties of the handlers *)

Lemma checkWheelsFrequencies_cases (s : state) :
  checkWheelsFrequencies s = s \/
  checkWheelsFrequencies s =
    mkState (microsFrontWheel s) (microsRearWheel s) (startFrontWheel s)
            (startRearWheel s) Unknown Unknown (classify (difference s))
            (OCR1A s) (OCR1B s).
Proof.
  destruct (both_freshb s) eqn:F.
  - right. now apply checkWheelsFrequencies_fresh.
  - left. now apply checkWheelsFrequencies_hold.
Qed.

Lemma classify_cases (d : Z) :
  classify d = Balanced \/ classify d = FrontSlower \/ classify d = RearSlower.
Proof.
  unfold classify. destruct (d >? 50); [auto|]. destruct (d <? -50); auto.
Qed.

Lemma in_range_init : in_range init.
Proof.
  unfold in_range, init, Balanced. cbn.
  change (uint32_t (-1)) with 4294967295. lia.
Qed.

Lemma in_range_check (s : state) :
  in_range s -> in_range (checkWheelsFrequencies s).
Proof.
  intros H. destruct (checkWheelsFrequencies_cases s) as [-> | ->]; [exact H|].
  unfold in_range in *. cbn.
  change Unknown with 4294967295.
  pose proof (classify_cases (difference s)). intuition lia.
Qed.

Lemma written_commands_bounds (value : Z) (s : state) :
  1000 <= OCR1A (setServoPosition value s) <= 1000 + 235 * 16 /\
  1000 <= OCR1B (setServoPosition value s) <= 1000 + 235 * 16.
Proof.
  rewrite setServoPosition_OCR1A, setServoPosition_OCR1B.
  pose proof (clamp_value_range value).
  destruct (_ =? 1); destruct (_ =? -1); lia.
Qed.

Lemma in_range_step (s : state) (e : event) :
  in_range s -> in_range (step s e).
Proof.
  intros H. destruct e as [r | | p | p].
  - cbn [step]. unfold ADC_vect.
    pose proof (in_range_check s H) as Hc.
    pose proof (written_commands_bounds (128 - r) s) as Hr.
    unfold in_range in *.
    destruct (setServoPosition_micros (128 - r) Front s) as [MF SF].
    destruct (setServoPosition_micros (128 - r) Rear s) as [MR SR].
    cbn [micros start] in MF, SF, MR, SR.
    rewrite MF, SF, MR, SR.
    rewrite (setServoPosition_period _ Front), (setServoPosition_period _ Rear),
      setServoPosition_class.
    intuition lia.
  - unfold in_range in *. cbn.
    pose proof (uint32_t_range (microsFrontWheel s + 1)).
    pose proof (uint32_t_range (microsRearWheel s + 1)).
    intuition lia.
  - cbn [step]. unfold INT0_vect. unfold in_range in *.
    destruct (negb _); cbn;
      pose proof (uint32_t_range (microsFrontWheel s - startFrontWheel s));
      intuition lia.
  - cbn [step]. unfold INT1_vect. unfold in_range in *.
    destruct (negb _); cbn;
      pose proof (uint32_t_range (microsRearWheel s - startRearWheel s));
      intuition lia.
Qed.

Lemma in_range_run (tr : list event) :
  forall s, in_range s -> in_range (run tr s).
Proof.
  induction tr as [| e tr IH]; intros s H; [exact H|].
  rewrite run_cons. apply IH, in_range_step, H.
Qed.

Lemma in_range_reachable (tr : list event) : in_range (run tr init).
Proof. apply in_range_run, in_range_init. Qed.

(** X1.  After any sequence of interrupts from reset, every 32-bit
    variable holds a value in [0, 2^32), the stored classification is one
    of Balanced, FrontSlower, RearSlower, and each compare register holds
    0 (nothing written yet) or a command in [1000, 1000 + 235*16]. *)
Theorem reachable_in_range (tr : list event) : in_range (run tr init).
Proof. apply in_range_run, in_range_init. Qed.

(** X3.  Only a control cycle writes the outputs: over interrupts that are
    all timer or sensor interrupts the classification and both compare
    registers keep their values.  And a control cycle changes the
    classification only if it finds both samples fresh. *)
Theorem outputs_change_only_in_control_cycle (s : state) :
  (forall tr,
     no_adc tr = true ->
     checkWheelsFrequenciesReturnValue (run tr s) =
       checkWheelsFrequenciesReturnValue s /\
     OCR1A (run tr s) = OCR1A s /\
     OCR1B (run tr s) = OCR1B s) /\
  (forall ADCH,
     checkWheelsFrequenciesReturnValue (ADC_vect ADCH s) <>
       checkWheelsFrequenciesReturnValue s ->
     both_fresh s).
Proof.
  split.
  - intros tr. revert s.
    induction tr as [| e tr IH]; intros s H; [auto|].
    cbn [no_adc forallb] in H. apply andb_true_iff in H as [He Htr].
    rewrite run_cons. destruct (IH (step s e) Htr) as (C & A & B).
    rewrite C, A, B.
    destruct e as [r | | p | p]; [discriminate | | |].
    + auto.
    + cbn [step]. unfold INT0_vect. destruct (negb _); auto.
    + cbn [step]. unfold INT1_vect. destruct (negb _); auto.
  - intros ADCH H. apply both_freshb_spec.
    destruct (both_freshb s) eqn:F; [reflexivity|].
    exfalso. apply H. unfold ADC_vect.
    apply (setServoPosition_hold _ _ F).
Qed.

Lemma outputs_change_only_in_control_cycle_witness :
  let s := ADC_vect 28 (mkState 0 0 0 0 120 60 0 0 0) in
  let tr := ticks 5 ++ [INT0 4; INT1 8] ++ ticks 9 ++ [INT0 0; INT1 0] in
  checkWheelsFrequenciesReturnValue (run tr s) = FrontSlower /\
  OCR1A (run tr s) = 1000 /\
  OCR1B (run tr s) = 1000 + 100 * 16.
Proof.
  exact (proj1 (outputs_change_only_in_control_cycle
                  (ADC_vect 28 (mkState 0 0 0 0 120 60 0 0 0)))
           (ticks 5 ++ [INT0 4; INT1 8] ++ ticks 9 ++ [INT0 0; INT1 0]) eq_refl).
Defined.

(** X4.  A control cycle overrides the one before it: two control cycles
    in a row leave exactly the state that the second alone would have
    left.  In particular a control cycle repeated with the same reading
    changes nothing. *)
Theorem control_cycle_absorbs (r1 r2 : Z) (s : state) :
  ADC_vect r2 (ADC_vect r1 s) = ADC_vect r2 s /\
  ADC_vect r1 (ADC_vect r1 s) = ADC_vect r1 s.
Proof.
  assert (K : forall a b, ADC_vect b (ADC_vect a s) = ADC_vect b s).
  { intros a b. unfold ADC_vect, setServoPosition.
    set (c := checkWheelsFrequencies s).
    assert (Hc : both_freshb c = false).
    { subst c. destruct (both_freshb s) eqn:F.
      - rewrite (checkWheelsFrequencies_fresh s F).
        apply not_fresh_hold. now left.
      - now rewrite (checkWheelsFrequencies_hold s F). }
    match goal with
    | |- context [checkWheelsFrequencies (set_OCR1B ?y (set_OCR1A ?x c))] =>
        assert (E : checkWheelsFrequencies (set_OCR1B y (set_OCR1A x c)) =
                    set_OCR1B y (set_OCR1A x c))
          by (apply checkWheelsFrequencies_hold; exact Hc)
    end.
    cbv zeta. rewrite E. reflexivity. }
  split; apply K.
Qed.

(** X7.  The two sensor handlers touch disjoint variables: they commute,
    whatever the levels they read. *)
Theorem sensor_handlers_commute (p q : Z) (s : state) :
  INT0_vect p (INT1_vect q s) = INT1_vect q (INT0_vect p s).
Proof.
  unfold INT0_vect, INT1_vect.
  destruct (negb (Z.land p _ =? 0)); destruct (negb (Z.land q _ =? 0));
    reflexivity.
Qed.

(** X8.  A control cycle never releases both brakes: after
    setServoPosition at least one of the two commands is the
    baseline-scaled one, whatever the state it ran in. *)
Theorem never_both_released (value : Z) (s : state) :
  let s' := setServoPosition value s in
  OCR1A s' = 1000 + clamp_value value * 16 \/
  OCR1B s' = 1000 + clamp_value value * 16.
Proof.
  cbv zeta. rewrite setServoPosition_OCR1A, setServoPosition_OCR1B.
  destruct (Z.eqb_spec (checkWheelsFrequenciesReturnValue (checkWheelsFrequencies s)) 1)
    as [E | E].
  - right. rewrite E. reflexivity.
  - left. reflexivity.
Qed.

(** X5.  In any execution from reset, for each wheel: a rising edge taken
    at whatever value the wheel's counter has, then interrupts that are
    not edges of that wheel, then a falling edge, publish the number of
    timer interrupts in between, modulo 2^32, and leave the counter at 0.
    The unsigned subtraction makes this hold also when the counter wraps
    around between the two edges. *)
Theorem pulse_width_counts_ticks
    (w : wheel) (pre tr : list event) (hi lo : Z) :
  high w hi = true ->
  high w lo = false ->
  no_edge w tr = true ->
  let s2 := run (pre ++ [edge w hi] ++ tr ++ [edge w lo]) init in
  period w s2 = uint32_t (count_ticks tr) /\ micros w s2 = 0.
Proof.
  intros HI LO NE s2. subst s2.
  rewrite !run_app. set (s := run pre init).
  assert (R : 0 <= micros w s < 2 ^ 32).
  { pose proof (in_range_reachable pre) as H. fold s in H.
    unfold in_range in H. destruct w; cbn [micros]; intuition lia. }
  cbn [run fold_left].
  change (fold_left step tr ?x) with (run tr x).
  destruct (step_rise w s hi HI) as (S0 & M0 & _).
  assert (R0 : 0 <= micros w (step s (edge w hi)) < 2 ^ 32) by (rewrite M0; exact R).
  destruct (run_no_edge w tr _ R0 NE) as (S1 & M1).
  destruct (step_fall w (run tr (step s (edge w hi))) lo LO) as (P2 & M2 & _).
  split; [|exact M2].
  rewrite P2, S1, M1, S0, M0.
  unfold uint32_t, Word.unsigned.
  rewrite Zminus_mod_idemp_l. f_equal. lia.
Qed.

Lemma pulse_width_counts_ticks_witness :
  let s2 := run (ticks 9 ++ [INT0 4] ++ (ticks 7 ++ [ADC 40; INT1 8] ++ ticks 5) ++ [INT0 0])
                init in
  frontWheelPeriod s2 = 12 /\ microsFrontWheel s2 = 0.
Proof.
  exact (pulse_width_counts_ticks Front (ticks 9)
           (ticks 7 ++ [ADC 40; INT1 8] ++ ticks 5) 4 0 eq_refl eq_refl eq_refl).
Defined.

(** X6.  A falling edge does not clear the start mark.  In any execution
    from reset, a second falling edge of a wheel with no edge of that
    wheel since the first publishes the number of timer interrupts since
    the first minus the start mark still stored, modulo 2^32. *)
Theorem repeated_falling_edge
    (w : wheel) (pre tr : list event) (lo1 lo2 : Z) :
  high w lo1 = false ->
  high w lo2 = false ->
  no_edge w tr = true ->
  let s := run pre init in
  let s2 := run (pre ++ [edge w lo1] ++ tr ++ [edge w lo2]) init in
  period w s2 = uint32_t (count_ticks tr - start w s) /\
  start w s2 = start w s /\
  micros w s2 = 0.
Proof.
  intros L1 L2 NE s s2. subst s2.
  rewrite !run_app. fold s.
  cbn [run fold_left].
  change (fold_left step tr ?x) with (run tr x).
  destruct (step_fall w s lo1 L1) as (_ & M0 & _).
  assert (S0 : start w (step s (edge w lo1)) = start w s).
  { unfold high in L1.
    destruct w; cbn [step edge]; unfold INT0_vect, INT1_vect;
      rewrite L1; reflexivity. }
  assert (R0 : 0 <= micros w (step s (edge w lo1)) < 2 ^ 32) by (rewrite M0; lia).
  destruct (run_no_edge w tr _ R0 NE) as (S1 & M1).
  set (s1 := run tr (step s (edge w lo1))) in *.
  destruct (step_fall w s1 lo2 L2) as (P2 & M2 & _).
  assert (S2 : start w (step s1 (edge w lo2)) = start w s1).
  { unfold high in L2.
    destruct w; cbn [step edge]; unfold INT0_vect, INT1_vect;
      rewrite L2; reflexivity. }
  split; [|split; [congruence | exact M2]].
  rewrite P2, S1, M1, S0, M0. cbn [Z.add].
  unfold uint32_t, Word.unsigned.
  now rewrite Zminus_mod_idemp_l.
Qed.

Lemma repeated_falling_edge_witness :
  let s2 := run ((ticks 110 ++ [INT0 4]) ++ [INT0 0] ++ ticks 60 ++ [INT0 0]) init in
  frontWheelPeriod s2 = 2 ^ 32 - 50 /\ startFrontWheel s2 = 110.
Proof.
  pose proof (repeated_falling_edge Front (ticks 110 ++ [INT0 4]) (ticks 60) 0 0
                eq_refl eq_refl eq_refl) as H.
  cbv zeta in H. destruct H as (P & S & _).
  split.
  - etransitivity; [exact P | reflexivity].
  - etransitivity; [exact S | reflexivity].
Defined.

Lemma clamp_value_monotone (a b : Z) : a <= b -> clamp_value a <= clamp_value b.
Proof. intros H. rewrite !clamp_value_clamp. unfold clamp. lia. Qed.

(** X9.  Both commands are monotone in the lever reading: in the same
    state, a larger reading never gives a larger command on either
    channel. *)
Theorem command_monotone_in_lever (r1 r2 : Z) (s : state) :
  r1 <= r2 ->
  OCR1A (ADC_vect r2 s) <= OCR1A (ADC_vect r1 s) /\
  OCR1B (ADC_vect r2 s) <= OCR1B (ADC_vect r1 s).
Proof.
  intros H. unfold ADC_vect.
  rewrite !setServoPosition_OCR1A, !setServoPosition_OCR1B.
  pose proof (clamp_value_monotone (128 - r2) (128 - r1) ltac:(lia)).
  destruct (_ =? 1); destruct (_ =? -1); lia.
Qed.

Lemma command_monotone_in_lever_witness :
  OCR1A (ADC_vect 100 init) <= OCR1A (ADC_vect 28 init).
Proof.
  exact (proj1 (command_monotone_in_lever 28 100 init ltac:(lia))).
Defined.

(** X10.  The upper bound 235 of setServoPosition is never reached from
    the ADC handler: a register reading is at least 0, so the handler
    passes at most 128 and both commands are at most 1000 + 128*16. *)
Theorem lever_command_at_most_3048 (r : Z) (s : state) :
  0 <= r ->
  clamp_value (128 - r) <= 128 /\
  OCR1A (ADC_vect r s) <= 1000 + 128 * 16 /\
  OCR1B (ADC_vect r s) <= 1000 + 128 * 16.
Proof.
  intros H. unfold ADC_vect.
  rewrite setServoPosition_OCR1A, setServoPosition_OCR1B.
  assert (B : clamp_value (128 - r) <= 128)
    by (rewrite clamp_value_clamp; unfold clamp; lia).
  pose proof (clamp_value_range (128 - r)).
  split; [exact B|].
  destruct (_ =? 1); destruct (_ =? -1); lia.
Qed.

Lemma lever_command_at_most_3048_witness :
  OCR1A (ADC_vect 0 init) <= 1000 + 128 * 16.
Proof.
  exact (proj1 (proj2 (lever_command_at_most_3048 0 init ltac:(lia)))).
Defined.

Lemma difference_swap (s : state) :
  0 <= frontWheelPeriod s < 2 ^ 32 ->
  0 <= rearWheelPeriod s < 2 ^ 32 ->
  (uint32_t (frontWheelPeriod s - rearWheelPeriod s) <> 2 ^ 31 ->
   difference (swap_samples s) = - difference s) /\
  (uint32_t (frontWheelPeriod s - rearWheelPeriod s) = 2 ^ 31 ->
   difference (swap_samples s) = - 2 ^ 31 /\ difference s = - 2 ^ 31).
Proof.
  unfold difference, swap_samples, int32_t, uint32_t, Word.signed, Word.unsigned.
  cbn [frontWheelPeriod rearWheelPeriod set_frontWheelPeriod set_rearWheelPeriod].
  change (2 ^ (32 - 1)) with 2147483648.
  change (2 ^ 31) with 2147483648.
  change (2 ^ 32) with 4294967296.
  generalize (frontWheelPeriod s) (rearWheelPeriod s). intros f r Hf Hr.
  rewrite !Z.mod_mod by lia.
  destruct (Z.ltb_spec ((f - r) mod 4294967296) 2147483648);
    destruct (Z.ltb_spec ((r - f) mod 4294967296) 2147483648);
    split; intros; Z.div_mod_to_equations; lia.
Qed.

(** X11.  The comparator treats the wheels symmetrically: with both
    samples fresh, exchanging them exchanges FrontSlower and RearSlower
    and keeps Balanced.  The one exception is a wrapped difference of
    exactly 2^31, which reads as -2^31 either way round and gives
    RearSlower in both. *)
Theorem classification_antisymmetric (s : state) :
  both_fresh s ->
  0 <= frontWheelPeriod s < 2 ^ 32 ->
  0 <= rearWheelPeriod s < 2 ^ 32 ->
  let c := checkWheelsFrequenciesReturnValue (checkWheelsFrequencies s) in
  let c' :=
    checkWheelsFrequenciesReturnValue (checkWheelsFrequencies (swap_samples s)) in
  (uint32_t (frontWheelPeriod s - rearWheelPeriod s) <> 2 ^ 31 -> c' = - c) /\
  (uint32_t (frontWheelPeriod s - rearWheelPeriod s) = 2 ^ 31 ->
   c = RearSlower /\ c' = RearSlower).
Proof.
  intros F Rf Rr c c'.
  assert (F' : both_fresh (swap_samples s)) by (destruct F; split; assumption).
  apply both_freshb_spec in F, F'.
  subst c c'.
  rewrite (checkWheelsFrequencies_fresh s F),
    (checkWheelsFrequencies_fresh _ F').
  cbn [checkWheelsFrequenciesReturnValue].
  destruct (difference_swap s Rf Rr) as [N E].
  unfold classify, FrontSlower, RearSlower, Balanced.
  split.
  - intros H. rewrite (N H).
    destruct (Z.gtb_spec (difference s) 50);
      destruct (Z.ltb_spec (difference s) (-50));
      destruct (Z.gtb_spec (- difference s) 50);
      destruct (Z.ltb_spec (- difference s) (-50)); lia.
  - intros H. destruct (E H) as [-> ->]. split; reflexivity.
Qed.

Lemma classification_antisymmetric_witness :
  let s := mkState 0 0 0 0 120 60 0 0 0 in
  checkWheelsFrequenciesReturnValue (checkWheelsFrequencies s) = FrontSlower /\
  checkWheelsFrequenciesReturnValue (checkWheelsFrequencies (swap_samples s)) =
    RearSlower.
Proof.
  assert (F : both_fresh (mkState 0 0 0 0 120 60 0 0 0))
    by (split; vm_compute; congruence).
  pose proof (classification_antisymmetric (mkState 0 0 0 0 120 60 0 0 0) F
                ltac:(cbn; lia) ltac:(cbn; lia)) as H.
  cbv zeta in H. destruct H as [N _].
  split; [reflexivity|].
  etransitivity; [apply N; vm_compute; congruence | reflexivity].
Defined.

(** X12.  The timer handler advances both counters by one modulo 2^32 and
    changes nothing else, so [n] timer interrupts in a row add [n] to each
    counter modulo 2^32; from 2^32 - 1 a counter wraps to 0. *)
Theorem timer_advances_counters (n : nat) (s : state) :
  0 <= microsFrontWheel s < 2 ^ 32 ->
  0 <= microsRearWheel s < 2 ^ 32 ->
  run (ticks n) s =
    set_microsRearWheel (uint32_t (microsRearWheel s + Z.of_nat n))
      (set_microsFrontWheel (uint32_t (microsFrontWheel s + Z.of_nat n)) s) /\
  (microsFrontWheel s = 2 ^ 32 - 1 ->
   microsFrontWheel (TIMER2_COMPA_vect s) = 0).
Proof.
  intros RF RR. split.
  - revert s RF RR. induction n as [| n IH]; intros s RF RR.
    + cbn [ticks repeat run fold_left Z.of_nat].
      rewrite !Z.add_0_r, !uint32_t_small by assumption. now destruct s.
    + cbn [ticks repeat]. rewrite run_cons. fold (ticks n).
      rewrite IH by (cbn; apply uint32_t_range).
      cbn. unfold set_microsRearWheel, set_microsFrontWheel. cbn.
      unfold uint32_t, Word.unsigned.
      rewrite !Zplus_mod_idemp_l.
      f_equal; f_equal; lia.
  - intros H. cbn. rewrite H. reflexivity.
Qed.

Lemma timer_advances_counters_witness :
  microsFrontWheel (run (ticks 3) (mkState (2 ^ 32 - 2) 7 0 0 0 0 0 0 0)) = 1 /\
  microsRearWheel (run (ticks 3) (mkState (2 ^ 32 - 2) 7 0 0 0 0 0 0 0)) = 10.
Proof.
  pose proof (timer_advances_counters 3 (mkState (2 ^ 32 - 2) 7 0 0 0 0 0 0 0)
                ltac:(cbn; lia) ltac:(cbn; lia)) as [H _].
  rewrite H. split; reflexivity.
Defined.

(** ** Properties of the set-up functions and main *)

Lemma testbit_uint8_t (z n : Z) :
  0 <= n < 8 -> Z.testbit (Word.unsigned 8 z) n = Z.testbit z n.
Proof.
  intros H. unfold Word.unsigned. apply Z.mod_pow2_bits_low. lia.
Qed.

Lemma testbit_bit (n : Z) : 0 <= n -> Z.testbit (Z.shiftl 1 n) n = true.
Proof.
  intros H. rewrite Z.shiftl_spec by exact H. now rewrite Z.sub_diag.
Qed.

(** X2.  Whatever interrupts are served after main's set-up, both compare
    registers stay strictly below the value ServoPWMinit stores in ICR1
    (40000). *)
Theorem compare_below_top (h : Io.bits) (p : regs) (tr : list event) :
  let q := fst (main h p tr) in
  let s := snd (main h p tr) in
  q ICR1 = 40000 /\ OCR1A s < q ICR1 /\ OCR1B s < q ICR1.
Proof.
  cbv zeta. cbn [main fst snd].
  assert (E : ServoPWMinit h
                (PhotoInterruptersInit h (MicrosTimerInit h (ADCinit h p))) ICR1
              = 40000) by reflexivity.
  rewrite E.
  pose proof (in_range_reachable tr) as H. unfold in_range in H.
  intuition lia.
Qed.

(** X13.  After main's set-up the bits that switch on the three
    interrupt sources the handlers are written for are set: ADEN, ADIE,
    ADATE and ADSC in ADCSRA (each or-assignment keeps the bits set
    before it), OCIE2A in TIMSK2, INT0 and INT1 in EIMSK.  This holds for
    any device header whose bit numbers lie in 0..7. *)
Theorem interrupts_enabled (h : Io.bits) (p : regs) :
  Io.in_byte h ->
  let q := fst (main h p []) in
  Z.testbit (q ADCSRA) (Io.ADEN h) = true /\
  Z.testbit (q ADCSRA) (Io.ADIE h) = true /\
  Z.testbit (q ADCSRA) (Io.ADATE h) = true /\
  Z.testbit (q ADCSRA) (Io.ADSC h) = true /\
  Z.testbit (q TIMSK2) (Io.OCIE2A h) = true /\
  Z.testbit (q EIMSK) (Io.INT0 h) = true /\
  Z.testbit (q EIMSK) (Io.INT1 h) = true.
Proof.
  intros ((EN & IE & ATE & SC) & OC & I0 & I1) q. subst q.
  cbn [main fst].
  unfold ServoPWMinit, PhotoInterruptersInit, MicrosTimerInit, ADCinit, write.
  cbn [reg_eq_dec reg_rec reg_rect width].
  repeat split;
    repeat (rewrite ?testbit_uint8_t, ?Z.lor_spec by assumption);
    rewrite ?testbit_bit by lia;
    rewrite ?orb_true_r; reflexivity.
Qed.

Lemma interrupts_enabled_witness :
  let q := fst (main Io.iom328p (fun _ => 0) []) in
  Z.testbit (q ADCSRA) 3 = true /\ q ADCSRA = 239.
Proof.
  assert (B : Io.in_byte Io.iom328p) by (unfold Io.in_byte; cbn; lia).
  pose proof (interrupts_enabled Io.iom328p (fun _ => 0) B) as H.
  cbv zeta in H. split; [exact (proj1 (proj2 H)) | reflexivity].
Defined.

(** X14.  Each set-up function writes its own registers only, with values
    that do not depend on what any register held before; so the register
    file main leaves does not depend on the one it started from, and the
    four functions can run in any order, or again, with the same
    result. *)
Theorem set_up_independent_of_registers (h : Io.bits) (p p' : regs) (r : reg) :
  ADCinit h p r =
    match r with ADMUX | ADCSRA => ADCinit h p' r | _ => p r end /\
  MicrosTimerInit h p r =
    match r with
    | TCCR2A | TCCR2B | TIMSK2 | OCR2A => MicrosTimerInit h p' r
    | _ => p r
    end /\
  PhotoInterruptersInit h p r =
    match r with EIMSK | EICRA => PhotoInterruptersInit h p' r | _ => p r end /\
  ServoPWMinit h p r =
    match r with
    | DDRB | TCCR1A | TCCR1B | ICR1 => ServoPWMinit h p' r
    | _ => p r
    end /\
  fst (main h p []) r = fst (main h p' []) r /\
  ADCinit h (ServoPWMinit h (MicrosTimerInit h (PhotoInterruptersInit h p))) r =
    fst (main h p []) r /\
  fst (main h (fst (main h p [])) []) r = fst (main h p []) r.
Proof.
  destruct r; repeat split.
Qed.
